(** * cozorocks bridge ([cozorocks/bridge/db.h]): a shallow embedding

    The header declares the C++ side of the bridge between the host and the
    RocksDB engine: the snapshot handle, the bulk (SST file) writer, the
    database handle with its bulk-load and range operations, and the
    comparator that wraps a host callback.

    Engine calls are calls into an external library.  They are modelled by an
    [Engine] interface whose members compute the result of each call from the
    engine's state; every call is also recorded in a trace, so that statements
    about which calls a bridge operation issues, in which order and with which
    arguments, are statements about that trace.  The caller's
    [RocksDbStatus &status] output parameter is a cell of the world state. *)

From stdpp Require Import base list strings.
From Stdlib Require Import ZArith Lia.

Local Open Scope Z_scope.

(** ** Pointers and views *)

(** Raw pointers handed around by the bridge; each pointee type gets its own
    wrapper so that handles of different kinds cannot be confused. *)
Inductive ColumnFamilyHandle := CfPtr (addr : N).
Inductive DB := DbPtr (addr : N).
Inductive TransactionDB := TxnDbPtr (addr : N).
Inductive Snapshot := SnapPtr (addr : N).

(** [RustBytes] is [rust::Slice<const std::uint8_t>]: a host-owned read-only
    view, pointer plus length. *)
Record RustBytes := mkRustBytes { rb_data : N; rb_len : N }.

(** [rocksdb::Slice]: the engine's view, pointer plus size. *)
Record Slice := mkSlice { data_ : N; size_ : N }.

(** Byte-addressed memory, and the bytes a view of [n] bytes at [p] covers. *)
Definition Memory := N -> Byte.byte.

Definition view_bytes (m : Memory) (p n : N) : list Byte.byte :=
  map (fun i => m (p + N.of_nat i)%N) (seq 0 (N.to_nat n)).

Definition RustBytes_bytes (m : Memory) (d : RustBytes) : list Byte.byte :=
  view_bytes m (rb_data d) (rb_len d).

Definition Slice_bytes (m : Memory) (s : Slice) : list Byte.byte :=
  view_bytes m (data_ s) (size_ s).

(** Modelled from the spec: [convert_slice] of [slice.h], a header this one
    includes.  Section 4.1: the engine view references the same memory as the
    host view, nothing is copied, the length is trusted. *)
Definition convert_slice (d : RustBytes) : Slice :=
  {| data_ := rb_data d; size_ := rb_len d |}.

(** Modelled from the spec: [convert_slice_back] of [slice.h], the reverse
    conversion of Section 4.1 for views the engine hands back. *)
Definition convert_slice_back (s : Slice) : RustBytes :=
  {| rb_data := data_ s; rb_len := size_ s |}.

(** ** Statuses *)

(** The engine's status codes, as far as Section 6 enumerates them; the
    remaining ones are kept apart by their number. *)
Inductive Code :=
| kOk | kNotFound | kCorruption | kInvalidArgument | kIOError | kBusy
| kOtherCode (n : N).

(** [rocksdb::Status]: a code and the diagnostic state. *)
Record Status := mkStatus { code : Code; state : string }.

Definition ok (s : Status) : bool :=
  match code s with kOk => true | _ => false end.

(** Modelled from the spec: [RocksDbStatus], declared in [common.h]; Section 6
    gives it an enumerated code plus a diagnostic string. *)
Record RocksDbStatus := mkRocksDbStatus { rs_code : Code; rs_message : string }.

(** ** Option structs of the engine

    These structs are declared by the engine's own headers
    ([rocksdb/options.h], [rocksdb/utilities/transaction_db.h]); the bridge
    default-constructs them and, for the write optimizations, sets two
    members.  Only the members that the bridge sets, or that decide a
    property stated about the bridge, are listed, each with the default the
    engine's declaration gives it. *)

Record EnvOptions := mkEnvOptions { }.

Record WriteOptions := mkWriteOptions { sync : bool; disableWAL : bool }.

Definition WriteOptions_default : WriteOptions :=
  {| sync := false; disableWAL := false |}.

Record TransactionDBWriteOptimizations := mkOptimizations {
  skip_concurrency_control : bool;
  skip_duplicate_key_check : bool
}.

Definition TransactionDBWriteOptimizations_default : TransactionDBWriteOptimizations :=
  {| skip_concurrency_control := false; skip_duplicate_key_check := false |}.

(** [rocksdb::IngestExternalFileOptions].  [move_files] asks the engine to
    move the external file instead of copying it; it is off unless set. *)
Record IngestExternalFileOptions := mkIngestOptions {
  move_files : bool;
  failed_move_fall_back_to_copy : bool;
  snapshot_consistency : bool;
  allow_global_seqno : bool;
  allow_blocking_flush : bool;
  ingest_behind : bool
}.

Definition IngestExternalFileOptions_default : IngestExternalFileOptions :=
  {| move_files := false;
     failed_move_fall_back_to_copy := true;
     snapshot_consistency := true;
     allow_global_seqno := true;
     allow_blocking_flush := true;
     ingest_behind := false |}.

Record CompactRangeOptions := mkCompactRangeOptions {
  exclusive_manual_compaction : bool;
  change_level : bool
}.

Definition CompactRangeOptions_default : CompactRangeOptions :=
  {| exclusive_manual_compaction := true; change_level := false |}.

(** ** The engine and the status adapter *)

(** The calls of the engine that the header uses.  A call that works on the
    database or on files takes the engine's state and returns the new one; a
    call on an object ([SstFileWriter], [WriteBatch]) also returns the object
    after the call. *)
Class Engine := {
  EngineState : Type;
  Options : Type;
  SstFileWriter : Type;
  WriteBatch : Type;
  eng_GetBaseDB : TransactionDB -> DB;
  eng_GetOptions : DB -> ColumnFamilyHandle -> EngineState -> Options;
  eng_SstFileWriter : EnvOptions -> Options -> SstFileWriter;
  eng_Open : SstFileWriter -> string -> EngineState ->
             Status * SstFileWriter * EngineState;
  eng_Put : SstFileWriter -> Slice -> Slice -> EngineState ->
            Status * SstFileWriter * EngineState;
  eng_Finish : SstFileWriter -> EngineState ->
               Status * SstFileWriter * EngineState;
  eng_IngestExternalFile :
    DB -> ColumnFamilyHandle -> list string -> IngestExternalFileOptions ->
    EngineState -> Status * EngineState;
  eng_WriteBatch : WriteBatch;
  eng_DeleteRange :
    WriteBatch -> ColumnFamilyHandle -> Slice -> Slice -> EngineState ->
    Status * WriteBatch;
  eng_Write :
    TransactionDB -> WriteOptions -> TransactionDBWriteOptimizations ->
    WriteBatch -> EngineState -> Status * EngineState;
  eng_CompactRange :
    TransactionDB -> CompactRangeOptions -> ColumnFamilyHandle ->
    Slice -> Slice -> EngineState -> Status * EngineState;
  eng_ReleaseSnapshot : DB -> Snapshot -> EngineState -> EngineState
}.

(** [write_status] comes from [common.h], a header this one includes: what
    it stores in the caller's status for an engine status is a parameter. *)
Class StatusAdapter := {
  translate : Status -> RocksDbStatus -> RocksDbStatus
}.

(** ** Effects: engine calls, the status cell, the trace *)

Section Effects.
Context `{Eng : Engine} `{Ada : StatusAdapter}.

(** One entry per call into the engine, with the arguments passed and, for
    a call that returns a [Status], the status it returned; one entry per
    execution of [write_status]. *)
Inductive Event :=
| EvGetBaseDB (db : TransactionDB)
| EvGetOptions (db : DB) (cf : ColumnFamilyHandle)
| EvOpen (inner : SstFileWriter) (path : string) (s : Status)
| EvPut (inner : SstFileWriter) (key val : Slice) (s : Status)
| EvFinish (inner : SstFileWriter) (s : Status)
| EvIngestExternalFile (db : DB) (cf : ColumnFamilyHandle)
    (files : list string) (ifo : IngestExternalFileOptions) (s : Status)
| EvDeleteRange (batch : WriteBatch) (cf : ColumnFamilyHandle)
    (begin_key end_key : Slice) (s : Status)
| EvWrite (db : TransactionDB) (w_opts : WriteOptions)
    (optimizations : TransactionDBWriteOptimizations) (batch : WriteBatch)
    (s : Status)
| EvCompactRange (db : TransactionDB) (options : CompactRangeOptions)
    (cf : ColumnFamilyHandle) (start_s end_s : Slice) (s : Status)
| EvReleaseSnapshot (db : DB) (snapshot : Snapshot)
| EvWriteStatus (s : Status).

(** The engine's state, the caller's status object that [status] refers
    to, and the calls made so far, oldest first. *)
Record World := mkWorld {
  w_engine : EngineState;
  w_status : RocksDbStatus;
  w_trace : list Event
}.

(** A member function either returns, or indexes a vector past its end:
    [std::vector::operator[]] does not check, the access is undefined
    behaviour, and nothing is known of the execution from there on. *)
Inductive Outcome (A : Type) :=
| Returned (a : A)
| OutOfBounds.
Global Arguments Returned {A} a.
Global Arguments OutOfBounds {A}.

Definition M (A : Type) : Type := World -> Outcome A * World.

Definition ret {A} (a : A) : M A := fun w => (Returned a, w).

Definition bind {A B} (m : M A) (k : A -> M B) : M B :=
  fun w =>
    match m w with
    | (Returned a, w') => k a w'
    | (OutOfBounds, w') => (OutOfBounds, w')
    end.

Definition log (e : Event) (w : World) : World :=
  {| w_engine := w_engine w; w_status := w_status w;
     w_trace := w_trace w ++ [e] |}.

Definition set_engine (st : EngineState) (w : World) : World :=
  {| w_engine := st; w_status := w_status w; w_trace := w_trace w |}.

(** [v[idx]] on a [std::vector]. *)
Definition vector_at {A} (v : list A) (idx : nat) : M A :=
  fun w =>
    match v !! idx with
    | Some x => (Returned x, w)
    | None => (OutOfBounds, w)
    end.

(** [write_status(s, status)]: the adapter stores its translation of [s]
    in the status object. *)
Definition write_status (s : Status) : M unit :=
  fun w =>
    (Returned tt,
     log (EvWriteStatus s)
       {| w_engine := w_engine w; w_status := translate s (w_status w);
          w_trace := w_trace w |}).

(** The engine calls, each run against the engine's current state. *)
Definition GetBaseDB (db : TransactionDB) : M DB :=
  fun w => (Returned (eng_GetBaseDB db), log (EvGetBaseDB db) w).

Definition GetOptions (db : DB) (cf : ColumnFamilyHandle) : M Options :=
  fun w => (Returned (eng_GetOptions db cf (w_engine w)),
            log (EvGetOptions db cf) w).

Definition Open (inner : SstFileWriter) (path : string)
  : M (Status * SstFileWriter) :=
  fun w =>
    let '(s, inner', st) := eng_Open inner path (w_engine w) in
    (Returned (s, inner'), log (EvOpen inner path s) (set_engine st w)).

Definition Put (inner : SstFileWriter) (key val : Slice)
  : M (Status * SstFileWriter) :=
  fun w =>
    let '(s, inner', st) := eng_Put inner key val (w_engine w) in
    (Returned (s, inner'), log (EvPut inner key val s) (set_engine st w)).

Definition Finish (inner : SstFileWriter) : M (Status * SstFileWriter) :=
  fun w =>
    let '(s, inner', st) := eng_Finish inner (w_engine w) in
    (Returned (s, inner'), log (EvFinish inner s) (set_engine st w)).

Definition IngestExternalFile (db : DB) (cf : ColumnFamilyHandle)
    (files : list string) (ifo : IngestExternalFileOptions) : M Status :=
  fun w =>
    let '(s, st) := eng_IngestExternalFile db cf files ifo (w_engine w) in
    (Returned s, log (EvIngestExternalFile db cf files ifo s) (set_engine st w)).

Definition DeleteRange (batch : WriteBatch) (cf : ColumnFamilyHandle)
    (begin_key end_key : Slice) : M (Status * WriteBatch) :=
  fun w =>
    let '(s, batch') :=
      eng_DeleteRange batch cf begin_key end_key (w_engine w) in
    (Returned (s, batch'), log (EvDeleteRange batch cf begin_key end_key s) w).

Definition Write (db : TransactionDB) (w_opts : WriteOptions)
    (optimizations : TransactionDBWriteOptimizations) (batch : WriteBatch)
  : M Status :=
  fun w =>
    let '(s, st) := eng_Write db w_opts optimizations batch (w_engine w) in
    (Returned s, log (EvWrite db w_opts optimizations batch s) (set_engine st w)).

Definition CompactRange (db : TransactionDB) (options : CompactRangeOptions)
    (cf : ColumnFamilyHandle) (start_s end_s : Slice) : M Status :=
  fun w =>
    let '(s, st) := eng_CompactRange db options cf start_s end_s (w_engine w) in
    (Returned s, log (EvCompactRange db options cf start_s end_s s) (set_engine st w)).

Definition ReleaseSnapshot (db : DB) (snapshot : Snapshot) : M unit :=
  fun w =>
    (Returned tt,
     log (EvReleaseSnapshot db snapshot)
       (set_engine (eng_ReleaseSnapshot db snapshot (w_engine w)) w)).

(** The status an engine call returned, for the calls that return one. *)
Definition engine_status (e : Event) : option Status :=
  match e with
  | EvOpen _ _ s | EvPut _ _ _ s | EvFinish _ s
  | EvIngestExternalFile _ _ _ _ s | EvDeleteRange _ _ _ _ s
  | EvWrite _ _ _ _ s | EvCompactRange _ _ _ _ _ s => Some s
  | _ => None
  end.

(** The status a [write_status] entry was given. *)
Definition written_status (e : Event) : option Status :=
  match e with
  | EvWriteStatus s => Some s
  | _ => None
  end.

(** The statuses returned by the engine in a trace, and the statuses handed
    to the adapter in it, both oldest first. *)
Definition engine_statuses (t : list Event) : list Status :=
  omap engine_status t.

Definition written_statuses (t : list Event) : list Status :=
  omap written_status t.

End Effects.

Notation "x <- c1 ;; c2" := (bind c1 (fun x => c2))
  (at level 62, c1 at next level, right associativity).
Notation "c1 ;;; c2" := (bind c1 (fun _ => c2))
  (at level 62, right associativity).

(** ** Machine integers *)

(** [std::int8_t]: the integers from -128 to 127. *)
Record int8 := mkInt8 {
  int8_val : Z;
  int8_range : (-128 <=? int8_val) && (int8_val <? 128) = true
}.

(** Conversion of an integer value to the 32-bit [int]. *)
Definition to_int (z : Z) : Z := (z + 2 ^ 31) mod 2 ^ 32 - 2 ^ 31.

(** ** [struct SnapshotBridge] *)

Module SnapshotBridge.

Record t := mk { snapshot : Snapshot; db : DB }.

Definition new (snapshot_ : Snapshot) (db_ : DB) : t :=
  {| snapshot := snapshot_; db := db_ |}.

Section Methods.
Context `{Eng : Engine}.

(** [~SnapshotBridge()] *)
Definition destroy (self : t) : M unit :=
  ReleaseSnapshot (db self) (snapshot self).
End Methods.

End SnapshotBridge.

(** ** [struct SstFileWriterBridge] *)

Module SstFileWriterBridge.
Section Methods.
Context `{Eng : Engine} `{Ada : StatusAdapter}.

Record t := mk { inner : SstFileWriter }.

Definition new (eopts : EnvOptions) (opts : Options) : t :=
  {| inner := eng_SstFileWriter eopts opts |}.

(** Both members return the object after the call on [inner]. *)
Definition finish (self : t) : M t :=
  r <- Finish (inner self) ;;
  write_status r.1 ;;;
  ret {| inner := r.2 |}.

Definition put (self : t) (key val : RustBytes) : M t :=
  r <- Put (inner self) (convert_slice key) (convert_slice val) ;;
  write_status r.1 ;;;
  ret {| inner := r.2 |}.
End Methods.
End SstFileWriterBridge.

(** ** [class RustComparator] *)

Module RustComparator.

Definition RustComparatorFn : Type := RustBytes -> RustBytes -> int8.

Record t := mk {
  name : string;
  ext_cmp : RustComparatorFn;
  can_different_bytes_be_equal : bool
}.

Definition new (name_ : string) (can_different_bytes_be_equal_ : bool)
    (f : RustComparatorFn) : t :=
  {| name := name_; ext_cmp := f;
     can_different_bytes_be_equal := can_different_bytes_be_equal_ |}.

Definition Compare (self : t) (a b : Slice) : Z :=
  to_int (int8_val (ext_cmp self (convert_slice_back a) (convert_slice_back b))).

Definition Name (self : t) : string := name self.

Definition CanKeysWithDifferentByteContentsBeEqual (self : t) : bool :=
  can_different_bytes_be_equal self.

(** The two hooks take a [string *] to update in place; each returns the
    string the pointer refers to when the hook is done. *)
Definition FindShortestSeparator (self : t) (start : string) (limit : Slice)
  : string := start.

Definition FindShortSuccessor (self : t) (key : string) : string := key.

End RustComparator.

(** ** [struct RocksDbBridge] *)

Module RocksDbBridge.

(** A [unique_ptr] is an [option], [None] being the null pointer. *)
Record t := mk {
  pri_comparator : option RustComparator.t;
  snd_comparator : option RustComparator.t;
  db : TransactionDB;
  cf_handles : list ColumnFamilyHandle;
  destroy_on_exit : bool;
  db_path : string
}.

Section Methods.
Context `{Eng : Engine} `{Ada : StatusAdapter}.

Definition get_base_db (self : t) : M DB := GetBaseDB (db self).

Definition get_sst_writer (self : t) (path : string) (idx : nat)
  : M (option SstFileWriterBridge.t) :=
  db_ <- get_base_db self ;;
  cf <- vector_at (cf_handles self) idx ;;
  options_ <- GetOptions db_ cf ;;
  let sst_file_writer := SstFileWriterBridge.new (mkEnvOptions) options_ in
  let path_ := path in
  r <- Open (SstFileWriterBridge.inner sst_file_writer) path_ ;;
  write_status r.1 ;;;
  ret (Some {| SstFileWriterBridge.inner := r.2 |}).

Definition ingest_sst (self : t) (path : string) (idx : nat) : M unit :=
  let ifo := IngestExternalFileOptions_default in
  db_ <- get_base_db self ;;
  let path_ := path in
  cf <- vector_at (cf_handles self) idx ;;
  s <- IngestExternalFile db_ cf [path_] ifo ;;
  write_status s.

Definition get_db_path (self : t) : string := db_path self.

Definition del_range (self : t) (start end_ : RustBytes) (idx : nat)
  : M unit :=
  let batch := eng_WriteBatch in
  cf <- vector_at (cf_handles self) idx ;;
  r <- DeleteRange batch cf (convert_slice start) (convert_slice end_) ;;
  let s := r.1 in
  let batch := r.2 in
  if negb (ok s) then
    write_status s
  else
    let w_opts := WriteOptions_default in
    let optimizations := TransactionDBWriteOptimizations_default in
    let optimizations :=
      {| skip_concurrency_control := true;
         skip_duplicate_key_check := skip_duplicate_key_check optimizations |} in
    let optimizations :=
      {| skip_concurrency_control := skip_concurrency_control optimizations;
         skip_duplicate_key_check := true |} in
    s2 <- Write (db self) w_opts optimizations batch ;;
    write_status s2.

Definition compact_range (self : t) (start end_ : RustBytes) (idx : nat)
  : M unit :=
  let options := CompactRangeOptions_default in
  cf <- vector_at (cf_handles self) idx ;;
  let start_s := convert_slice start in
  let end_s := convert_slice end_ in
  s <- CompactRange (db self) options cf start_s end_s ;;
  write_status s.
End Methods.

End RocksDbBridge.

(** ** Calls of the bridge, as one type *)

(** The members of the header that call the engine and report a status. *)
Inductive BridgeCall `{Eng : Engine} :=
| CallPut (writer : SstFileWriterBridge.t) (key val : RustBytes)
| CallFinish (writer : SstFileWriterBridge.t)
| CallGetSstWriter (self : RocksDbBridge.t) (path : string) (idx : nat)
| CallIngestSst (self : RocksDbBridge.t) (path : string) (idx : nat)
| CallDelRange (self : RocksDbBridge.t) (start end_ : RustBytes) (idx : nat)
| CallCompactRange (self : RocksDbBridge.t) (start end_ : RustBytes) (idx : nat).

Definition run_call `{Eng : Engine} `{Ada : StatusAdapter} (c : BridgeCall)
  : M unit :=
  match c with
  | CallPut writer key val => SstFileWriterBridge.put writer key val ;;; ret tt
  | CallFinish writer => SstFileWriterBridge.finish writer ;;; ret tt
  | CallGetSstWriter self path idx =>
      RocksDbBridge.get_sst_writer self path idx ;;; ret tt
  | CallIngestSst self path idx => RocksDbBridge.ingest_sst self path idx
  | CallDelRange self start end_ idx =>
      RocksDbBridge.del_range self start end_ idx
  | CallCompactRange self start end_ idx =>
      RocksDbBridge.compact_range self start end_ idx
  end.

Definition is_del_range `{Eng : Engine} (c : BridgeCall) : bool :=
  match c with CallDelRange _ _ _ _ => true | _ => false end.

(** The entries a run added to the trace. *)
Definition new_events `{Eng : Engine} (w w' : World) : list Event :=
  drop (length (w_trace w)) (w_trace w').

(** ** Reading a trace *)

Section Observations.
Context `{Eng : Engine}.

(** A run fails fast with the invalid-argument status: the member returns
    and the caller's status carries that code. *)
Definition reports_invalid_argument {A} (r : Outcome A * World) : Prop :=
  (exists a, r.1 = Returned a) /\ rs_code (w_status r.2) = kInvalidArgument.

(** The ingestion calls of a trace: target, files and options. *)
Definition ingest_call (e : Event)
  : option (ColumnFamilyHandle * list string * IngestExternalFileOptions) :=
  match e with
  | EvIngestExternalFile _ cf paths ifo _ => Some (cf, paths, ifo)
  | _ => None
  end.

Definition ingest_calls (t : list Event) := omap ingest_call t.

(** The batch-construction calls of a trace: the batch worked on, the
    column family and the two bounds. *)
Definition delete_range_call (e : Event)
  : option (WriteBatch * ColumnFamilyHandle * Slice * Slice) :=
  match e with
  | EvDeleteRange batch cf b e _ => Some (batch, cf, b, e)
  | _ => None
  end.

Definition delete_range_calls (t : list Event) := omap delete_range_call t.

(** The commits of a trace: the optimizations asked for and the batch. *)
Definition write_call (e : Event)
  : option (TransactionDBWriteOptimizations * WriteBatch) :=
  match e with
  | EvWrite _ _ optimizations batch _ => Some (optimizations, batch)
  | _ => None
  end.

Definition write_calls (t : list Event) := omap write_call t.

(** The snapshot releases of a trace. *)
Definition release_call (e : Event) : option (DB * Snapshot) :=
  match e with
  | EvReleaseSnapshot d snap => Some (d, snap)
  | _ => None
  end.

Definition release_calls (t : list Event) := omap release_call t.

(** Every status the engine returned was handed to the adapter, once each
    and in the order of the calls. *)
Definition routes_each_once (t : list Event) : Prop :=
  written_statuses t = engine_statuses t.

End Observations.

(** ** A scripted engine

    A small engine on which the bridge can be run on concrete inputs.  Every
    status-returning call answers with the status its script gives for that
    kind of call.  The store keeps the external files present on disk, the
    files ingested per column family, the batches committed and the snapshots
    released; a successful ingestion removes the source files only when the
    options ask for a move, and a failed call changes nothing. *)

Module Scripted.

Record Script := mkScript {
  on_Open : Status;
  on_Put : Status;
  on_Finish : Status;
  on_IngestExternalFile : Status;
  on_DeleteRange : Status;
  on_Write : Status;
  on_CompactRange : Status
}.

Definition RangeDeletion : Type := ColumnFamilyHandle * Slice * Slice.

Record Store := mkStore {
  files : list string;
  ingested : list (ColumnFamilyHandle * string);
  committed : list (list RangeDeletion);
  released : list Snapshot
}.

Definition engine (sc : Script) : Engine := {|
  EngineState := Store;
  Options := DB * ColumnFamilyHandle;
  SstFileWriter := (DB * ColumnFamilyHandle) * option string;
  WriteBatch := list RangeDeletion;
  eng_GetBaseDB := fun d => match d with TxnDbPtr a => DbPtr a end;
  eng_GetOptions := fun d cf _ => (d, cf);
  eng_SstFileWriter := fun _ opts => (opts, None);
  eng_Open := fun wr path st =>
    (on_Open sc,
     if ok (on_Open sc) then (wr.1, Some path) else wr,
     st);
  eng_Put := fun wr _ _ st => (on_Put sc, wr, st);
  eng_Finish := fun wr st =>
    (on_Finish sc,
     wr,
     if ok (on_Finish sc) then
       match wr.2 with
       | Some path =>
           {| files := files st ++ [path]; ingested := ingested st;
              committed := committed st; released := released st |}
       | None => st
       end
     else st);
  eng_IngestExternalFile := fun _ cf paths ifo st =>
    (on_IngestExternalFile sc,
     if ok (on_IngestExternalFile sc) then
       {| files :=
            if move_files ifo
            then filter (fun f => f ∉ paths) (files st)
            else files st;
          ingested := ingested st ++ map (fun f => (cf, f)) paths;
          committed := committed st; released := released st |}
     else st);
  eng_WriteBatch := [];
  eng_DeleteRange := fun batch cf b e _ =>
    (on_DeleteRange sc,
     if ok (on_DeleteRange sc) then batch ++ [(cf, b, e)] else batch);
  eng_Write := fun _ _ _ batch st =>
    (on_Write sc,
     if ok (on_Write sc) then
       {| files := files st; ingested := ingested st;
          committed := committed st ++ [batch]; released := released st |}
     else st);
  eng_CompactRange := fun _ _ _ _ _ st => (on_CompactRange sc, st);
  eng_ReleaseSnapshot := fun _ snap st =>
    {| files := files st; ingested := ingested st;
       committed := committed st; released := released st ++ [snap] |}
|}.

(** A writer and a batch of this engine, at the types of the interface. *)
Definition writer (sc : Script) (opts : DB * ColumnFamilyHandle)
    (path : option string) : @SstFileWriter (engine sc) := (opts, path).

Definition batch (sc : Script) (l : list RangeDeletion)
  : @WriteBatch (engine sc) := l.

(** An adapter that copies the code and the diagnostic state. *)
Definition adapter : StatusAdapter :=
  {| translate := fun s _ => {| rs_code := code s; rs_message := state s |} |}.

Definition OK : Status := {| code := kOk; state := "" |}.

Definition all_ok : Script :=
  {| on_Open := OK; on_Put := OK; on_Finish := OK;
     on_IngestExternalFile := OK; on_DeleteRange := OK; on_Write := OK;
     on_CompactRange := OK |}.

(** The batch step of [del_range] is refused. *)
Definition refuses_DeleteRange : Script :=
  {| on_Open := OK; on_Put := OK; on_Finish := OK;
     on_IngestExternalFile := OK;
     on_DeleteRange := {| code := kInvalidArgument; state := "key is too large" |};
     on_Write := OK; on_CompactRange := OK |}.

(** Opening an SST file fails. *)
Definition fails_Open : Script :=
  {| on_Open := {| code := kIOError; state := "No such file or directory" |};
     on_Put := OK; on_Finish := OK; on_IngestExternalFile := OK;
     on_DeleteRange := OK; on_Write := OK; on_CompactRange := OK |}.

Definition empty_store : Store :=
  {| files := []; ingested := []; committed := []; released := [] |}.

Definition status0 : RocksDbStatus := {| rs_code := kOk; rs_message := "" |}.

(** A database with two column families, and one with none. *)
Definition bridge2 : RocksDbBridge.t :=
  {| RocksDbBridge.pri_comparator := None;
     RocksDbBridge.snd_comparator := None;
     RocksDbBridge.db := TxnDbPtr 1;
     RocksDbBridge.cf_handles := [CfPtr 10; CfPtr 11];
     RocksDbBridge.destroy_on_exit := false;
     RocksDbBridge.db_path := "/tmp/db" |}.

Definition bridge0 : RocksDbBridge.t :=
  {| RocksDbBridge.pri_comparator := None;
     RocksDbBridge.snd_comparator := None;
     RocksDbBridge.db := TxnDbPtr 1;
     RocksDbBridge.cf_handles := [];
     RocksDbBridge.destroy_on_exit := false;
     RocksDbBridge.db_path := "/tmp/db" |}.

Definition world0 (sc : Script) (st : Store) : @World (engine sc) :=
  @mkWorld (engine sc) st status0 [].

(** The store of a world of this engine. *)
Definition store {sc : Script} (w : @World (engine sc)) : Store := w_engine w.

End Scripted.

(** ** Further notions *)

Section MoreObservations.
Context `{Eng : Engine}.


(** The world with another status object in the cell [status] refers to. *)
Definition with_status (st : RocksDbStatus) (w : World) : World :=
  {| w_engine := w_engine w; w_status := st; w_trace := w_trace w |}.

(** A commit for which both checks are skipped. *)
Definition skips_both_checks
    (c : TransactionDBWriteOptimizations * WriteBatch) : Prop :=
  skip_concurrency_control c.1 = true /\ skip_duplicate_key_check c.1 = true.

End MoreObservations.

(** A host callback that orders views by their lengths. *)
Definition int8_of_comparison (c : comparison) : int8 :=
  match c with
  | Lt => mkInt8 (-1) eq_refl
  | Eq => mkInt8 0 eq_refl
  | Gt => mkInt8 1 eq_refl
  end.

Definition by_length : RustComparator.RustComparatorFn :=
  fun a b => int8_of_comparison (rb_len a ?= rb_len b)%N.

(** * Properties *)

(** ** Views and integers *)

Lemma convert_slice_same_bytes (m : Memory) (d : RustBytes) :
  Slice_bytes m (convert_slice d) = RustBytes_bytes m d.
Proof. reflexivity. Qed.

Lemma convert_slice_back_same_bytes (m : Memory) (s : Slice) :
  RustBytes_bytes m (convert_slice_back s) = Slice_bytes m s.
Proof. reflexivity. Qed.

Lemma convert_slice_back_convert_slice (d : RustBytes) :
  convert_slice_back (convert_slice d) = d.
Proof. by destruct d. Qed.

Lemma int8_bounds (x : int8) : -128 <= int8_val x < 128.
Proof.
  destruct x as [v Hv]; simpl.
  apply andb_prop in Hv as [Hlo Hhi].
  apply Z.leb_le in Hlo. apply Z.ltb_lt in Hhi. lia.
Qed.

Lemma to_int_small (z : Z) : - 2 ^ 31 <= z < 2 ^ 31 -> to_int z = z.
Proof.
  intros Hz. unfold to_int.
  rewrite Z.mod_small; lia.
Qed.

Lemma to_int_int8 (x : int8) : to_int (int8_val x) = int8_val x.
Proof. apply to_int_small. pose proof (int8_bounds x). lia. Qed.

(** ** The trace *)

Section TraceFacts.
Context `{Eng : Engine}.

Lemma new_events_app (w w' : World) (evs : list Event) :
  w_trace w' = w_trace w ++ evs -> new_events w w' = evs.
Proof.
  intros Ht. unfold new_events. rewrite Ht. apply drop_app_length.
Qed.

End TraceFacts.

(** Unfolds a member function down to the engine's answers. *)
Ltac unfold_bridge :=
  unfold run_call,
    RocksDbBridge.get_sst_writer, RocksDbBridge.ingest_sst,
    RocksDbBridge.del_range, RocksDbBridge.compact_range,
    RocksDbBridge.get_base_db,
    SstFileWriterBridge.put, SstFileWriterBridge.finish,
    SstFileWriterBridge.new, SnapshotBridge.destroy,
    bind, ret, vector_at, write_status,
    GetBaseDB, GetOptions, Open, Put, Finish, IngestExternalFile,
    DeleteRange, Write, CompactRange, ReleaseSnapshot, log, set_engine;
  simpl.

(** Puts a trace built one entry at a time in the form [old ++ entries]. *)
Ltac flatten_trace := rewrite <- ?app_assoc; simpl.

(** ** In range: what each member does *)

Section InRange.
Context `{Eng : Engine} `{Ada : StatusAdapter}.
Implicit Types (self : RocksDbBridge.t) (w : World) (cf : ColumnFamilyHandle).

Lemma get_sst_writer_run self path idx w cf s inner' st :
  RocksDbBridge.cf_handles self !! idx = Some cf ->
  let db_ := eng_GetBaseDB (RocksDbBridge.db self) in
  let options_ := eng_GetOptions db_ cf (w_engine w) in
  let inner0 := eng_SstFileWriter mkEnvOptions options_ in
  eng_Open inner0 path (w_engine w) = (s, inner', st) ->
  RocksDbBridge.get_sst_writer self path idx w =
    (Returned (Some {| SstFileWriterBridge.inner := inner' |}),
     {| w_engine := st;
        w_status := translate s (w_status w);
        w_trace := w_trace w ++
          [EvGetBaseDB (RocksDbBridge.db self);
           EvGetOptions db_ cf;
           EvOpen inner0 path s;
           EvWriteStatus s] |}).
Proof.
  intros Hcf db_ options_ inner0 Hopen.
  unfold_bridge. rewrite Hcf. simpl.
  fold db_ options_ inner0. rewrite Hopen. simpl.
  flatten_trace. reflexivity.
Qed.

Lemma ingest_sst_run self path idx w cf s st :
  RocksDbBridge.cf_handles self !! idx = Some cf ->
  eng_IngestExternalFile (eng_GetBaseDB (RocksDbBridge.db self)) cf [path]
    IngestExternalFileOptions_default (w_engine w) = (s, st) ->
  RocksDbBridge.ingest_sst self path idx w =
    (Returned tt,
     {| w_engine := st;
        w_status := translate s (w_status w);
        w_trace := w_trace w ++
          [EvGetBaseDB (RocksDbBridge.db self);
           EvIngestExternalFile (eng_GetBaseDB (RocksDbBridge.db self)) cf
             [path] IngestExternalFileOptions_default s;
           EvWriteStatus s] |}).
Proof.
  intros Hcf Hingest.
  unfold_bridge. rewrite Hcf. simpl. rewrite Hingest. simpl.
  flatten_trace. reflexivity.
Qed.

Lemma del_range_run_refused self start end_ idx w cf s batch :
  RocksDbBridge.cf_handles self !! idx = Some cf ->
  eng_DeleteRange eng_WriteBatch cf (convert_slice start)
    (convert_slice end_) (w_engine w) = (s, batch) ->
  ok s = false ->
  RocksDbBridge.del_range self start end_ idx w =
    (Returned tt,
     {| w_engine := w_engine w;
        w_status := translate s (w_status w);
        w_trace := w_trace w ++
          [EvDeleteRange eng_WriteBatch cf (convert_slice start)
             (convert_slice end_) s;
           EvWriteStatus s] |}).
Proof.
  intros Hcf Hdel Hs.
  unfold_bridge. rewrite Hcf. simpl. rewrite Hdel. simpl. rewrite Hs. simpl.
  flatten_trace. reflexivity.
Qed.

Lemma del_range_run_committed self start end_ idx w cf s batch s2 st :
  RocksDbBridge.cf_handles self !! idx = Some cf ->
  eng_DeleteRange eng_WriteBatch cf (convert_slice start)
    (convert_slice end_) (w_engine w) = (s, batch) ->
  ok s = true ->
  eng_Write (RocksDbBridge.db self) WriteOptions_default
    {| skip_concurrency_control := true; skip_duplicate_key_check := true |}
    batch (w_engine w) = (s2, st) ->
  RocksDbBridge.del_range self start end_ idx w =
    (Returned tt,
     {| w_engine := st;
        w_status := translate s2 (w_status w);
        w_trace := w_trace w ++
          [EvDeleteRange eng_WriteBatch cf (convert_slice start)
             (convert_slice end_) s;
           EvWrite (RocksDbBridge.db self) WriteOptions_default
             {| skip_concurrency_control := true;
                skip_duplicate_key_check := true |} batch s2;
           EvWriteStatus s2] |}).
Proof.
  intros Hcf Hdel Hs Hwrite.
  unfold_bridge. rewrite Hcf. simpl. rewrite Hdel. simpl. rewrite Hs. simpl.
  rewrite Hwrite. simpl. flatten_trace. reflexivity.
Qed.

Lemma compact_range_run self start end_ idx w cf s st :
  RocksDbBridge.cf_handles self !! idx = Some cf ->
  eng_CompactRange (RocksDbBridge.db self) CompactRangeOptions_default cf
    (convert_slice start) (convert_slice end_) (w_engine w) = (s, st) ->
  RocksDbBridge.compact_range self start end_ idx w =
    (Returned tt,
     {| w_engine := st;
        w_status := translate s (w_status w);
        w_trace := w_trace w ++
          [EvCompactRange (RocksDbBridge.db self) CompactRangeOptions_default
             cf (convert_slice start) (convert_slice end_) s;
           EvWriteStatus s] |}).
Proof.
  intros Hcf Hcompact.
  unfold_bridge. rewrite Hcf. simpl. rewrite Hcompact. simpl.
  flatten_trace. reflexivity.
Qed.

Lemma put_run (writer : SstFileWriterBridge.t) key val w s inner' st :
  eng_Put (SstFileWriterBridge.inner writer) (convert_slice key)
    (convert_slice val) (w_engine w) = (s, inner', st) ->
  SstFileWriterBridge.put writer key val w =
    (Returned {| SstFileWriterBridge.inner := inner' |},
     {| w_engine := st;
        w_status := translate s (w_status w);
        w_trace := w_trace w ++
          [EvPut (SstFileWriterBridge.inner writer) (convert_slice key)
             (convert_slice val) s;
           EvWriteStatus s] |}).
Proof.
  intros Hput. unfold_bridge. rewrite Hput. simpl.
  flatten_trace. reflexivity.
Qed.

Lemma finish_run (writer : SstFileWriterBridge.t) w s inner' st :
  eng_Finish (SstFileWriterBridge.inner writer) (w_engine w) = (s, inner', st) ->
  SstFileWriterBridge.finish writer w =
    (Returned {| SstFileWriterBridge.inner := inner' |},
     {| w_engine := st;
        w_status := translate s (w_status w);
        w_trace := w_trace w ++
          [EvFinish (SstFileWriterBridge.inner writer) s; EvWriteStatus s] |}).
Proof.
  intros Hfinish. unfold_bridge. rewrite Hfinish. simpl.
  flatten_trace. reflexivity.
Qed.

End InRange.

(** ** Out of range: the unchecked access *)

Section OutOfRange.
Context `{Eng : Engine} `{Ada : StatusAdapter}.
Implicit Types (self : RocksDbBridge.t) (w : World).

Lemma get_sst_writer_past_end self path idx w :
  RocksDbBridge.cf_handles self !! idx = None ->
  RocksDbBridge.get_sst_writer self path idx w =
    (OutOfBounds, log (EvGetBaseDB (RocksDbBridge.db self)) w).
Proof. intros Hcf. unfold_bridge. by rewrite Hcf. Qed.

Lemma ingest_sst_past_end self path idx w :
  RocksDbBridge.cf_handles self !! idx = None ->
  RocksDbBridge.ingest_sst self path idx w =
    (OutOfBounds, log (EvGetBaseDB (RocksDbBridge.db self)) w).
Proof. intros Hcf. unfold_bridge. by rewrite Hcf. Qed.

Lemma del_range_past_end self start end_ idx w :
  RocksDbBridge.cf_handles self !! idx = None ->
  RocksDbBridge.del_range self start end_ idx w = (OutOfBounds, w).
Proof. intros Hcf. unfold_bridge. by rewrite Hcf. Qed.

Lemma compact_range_past_end self start end_ idx w :
  RocksDbBridge.cf_handles self !! idx = None ->
  RocksDbBridge.compact_range self start end_ idx w = (OutOfBounds, w).
Proof. intros Hcf. unfold_bridge. by rewrite Hcf. Qed.

End OutOfRange.

(** ** The comparator *)

(** C4: the two hooks are no-ops.  For every comparator, whatever its flag,
    [FindShortestSeparator] leaves the string it is given unchanged for every
    limit, and [FindShortSuccessor] leaves its string unchanged. *)
Theorem separator_hooks_are_noops
    (name_ : string) (flag : bool) (f : RustComparator.RustComparatorFn)
    (start key : string) (limit : Slice) :
  let self := RustComparator.new name_ flag f in
  RustComparator.FindShortestSeparator self start limit = start /\
  RustComparator.FindShortSuccessor self key = key /\
  RustComparator.CanKeysWithDifferentByteContentsBeEqual self = flag.
Proof. by intros self. Qed.

(** C5: [Compare] delegates to the callback.  For a comparator built from a
    name, a flag and a callback, [Compare a b] is the signed byte the callback
    returns on the two views converted back, unchanged in value and sign; the
    converted views cover the same bytes as the engine's views. *)
Theorem Compare_delegates_to_callback
    (name_ : string) (flag : bool) (f : RustComparator.RustComparatorFn)
    (a b : Slice) :
  let self := RustComparator.new name_ flag f in
  let r := f (convert_slice_back a) (convert_slice_back b) in
  RustComparator.Compare self a b = int8_val r /\
  Z.sgn (RustComparator.Compare self a b) = Z.sgn (int8_val r) /\
  (forall m : Memory,
     RustBytes_bytes m (convert_slice_back a) = Slice_bytes m a /\
     RustBytes_bytes m (convert_slice_back b) = Slice_bytes m b).
Proof.
  intros self r.
  assert (Hcmp : RustComparator.Compare self a b = int8_val r).
  { unfold RustComparator.Compare. simpl. apply to_int_int8. }
  split; [exact Hcmp |].
  split; [by rewrite Hcmp |].
  intros m. split; apply convert_slice_back_same_bytes.
Qed.

(** ** The snapshot handle *)

(** C8: destroying a snapshot handle issues exactly one engine call, the
    release of the stored snapshot on the stored database, and touches
    neither the caller's status nor anything else. *)
Theorem snapshot_released_once `{Eng : Engine}
    (snapshot_ : Snapshot) (db_ : DB) (w : World) :
  let self := SnapshotBridge.new snapshot_ db_ in
  let r := SnapshotBridge.destroy self w in
  r.1 = Returned tt /\
  new_events w r.2 = [EvReleaseSnapshot db_ snapshot_] /\
  release_calls (new_events w r.2) = [(db_, snapshot_)] /\
  w_engine r.2 = eng_ReleaseSnapshot db_ snapshot_ (w_engine w) /\
  w_status r.2 = w_status w.
Proof.
  intros self r.
  assert (Hnew : new_events w r.2 = [EvReleaseSnapshot db_ snapshot_]).
  { by apply new_events_app. }
  rewrite Hnew. by repeat split.
Qed.

(** ** The bulk-load path *)

(** C7: for an index in range, [get_sst_writer] asks the base database for
    the options the column family has in the engine's current state, builds
    the writer from default environment options and those options, opens it
    at the path, and stores the translation of the status of that open call
    in the caller's status. *)
Theorem get_sst_writer_opens_with_live_options
    `{Eng : Engine} `{Ada : StatusAdapter}
    (self : RocksDbBridge.t) (path : string) (idx : nat) (w : World) :
  (idx < length (RocksDbBridge.cf_handles self))%nat ->
  exists cf,
    RocksDbBridge.cf_handles self !! idx = Some cf /\
    let db_ := eng_GetBaseDB (RocksDbBridge.db self) in
    let options_ := eng_GetOptions db_ cf (w_engine w) in
    let inner0 := eng_SstFileWriter mkEnvOptions options_ in
    let r := eng_Open inner0 path (w_engine w) in
    RocksDbBridge.get_sst_writer self path idx w =
      (Returned (Some {| SstFileWriterBridge.inner := r.1.2 |}),
       {| w_engine := r.2;
          w_status := translate r.1.1 (w_status w);
          w_trace := w_trace w ++
            [EvGetBaseDB (RocksDbBridge.db self);
             EvGetOptions db_ cf;
             EvOpen inner0 path r.1.1;
             EvWriteStatus r.1.1] |}).
Proof.
  intros Hidx.
  destruct (lookup_lt_is_Some_2 _ _ Hidx) as [cf Hcf].
  exists cf. split; [exact Hcf |].
  intros db_ options_ inner0 r.
  apply get_sst_writer_run; [exact Hcf |].
  subst r. by destruct (eng_Open _ _ _) as [[s inner'] st].
Qed.

Lemma get_sst_writer_opens_with_live_options_witness :
  (1 < length (RocksDbBridge.cf_handles Scripted.bridge2))%nat /\
  RocksDbBridge.get_sst_writer
    (Eng := Scripted.engine Scripted.all_ok) (Ada := Scripted.adapter)
    Scripted.bridge2 "bulk.sst" 1
    (Scripted.world0 Scripted.all_ok Scripted.empty_store) =
  (Returned
     (Some {| SstFileWriterBridge.inner :=
                Scripted.writer Scripted.all_ok (DbPtr 1, CfPtr 11)
                  (Some "bulk.sst") |}),
   @mkWorld (Scripted.engine Scripted.all_ok) Scripted.empty_store
     {| rs_code := kOk; rs_message := "" |}
     [EvGetBaseDB (TxnDbPtr 1);
      EvGetOptions (DbPtr 1) (CfPtr 11);
      EvOpen (Scripted.writer Scripted.all_ok (DbPtr 1, CfPtr 11) None)
        "bulk.sst" Scripted.OK;
      EvWriteStatus Scripted.OK]).
Proof.
  assert (Hidx : (1 < length (RocksDbBridge.cf_handles Scripted.bridge2))%nat)
    by (simpl; lia).
  split; [exact Hidx |].
  destruct (get_sst_writer_opens_with_live_options
              (Eng := Scripted.engine Scripted.all_ok) (Ada := Scripted.adapter)
              Scripted.bridge2 "bulk.sst" 1
              (Scripted.world0 Scripted.all_ok Scripted.empty_store) Hidx)
    as [cf [Hcf Hrun]].
  simpl in Hcf. injection Hcf as <-.
  rewrite Hrun. reflexivity.
Defined.

(** C10: for an index in range, [get_sst_writer] returns a non-null writer
    whatever the status of the open call, a failed open included: the writer
    returned is the one the open call left behind, and the failure shows only
    in the caller's status, which holds the translation of the open status. *)
Theorem get_sst_writer_never_null
    `{Eng : Engine} `{Ada : StatusAdapter}
    (self : RocksDbBridge.t) (path : string) (idx : nat) (w : World) :
  (idx < length (RocksDbBridge.cf_handles self))%nat ->
  exists cf writer w',
    RocksDbBridge.cf_handles self !! idx = Some cf /\
    RocksDbBridge.get_sst_writer self path idx w = (Returned (Some writer), w') /\
    let options_ :=
      eng_GetOptions (eng_GetBaseDB (RocksDbBridge.db self)) cf (w_engine w) in
    let r := eng_Open (eng_SstFileWriter mkEnvOptions options_) path (w_engine w) in
    SstFileWriterBridge.inner writer = r.1.2 /\
    engine_statuses (new_events w w') = [r.1.1] /\
    written_statuses (new_events w w') = [r.1.1] /\
    w_status w' = translate r.1.1 (w_status w).
Proof.
  intros Hidx.
  destruct (lookup_lt_is_Some_2 _ _ Hidx) as [cf Hcf].
  destruct (eng_Open
              (eng_SstFileWriter mkEnvOptions
                 (eng_GetOptions (eng_GetBaseDB (RocksDbBridge.db self)) cf
                    (w_engine w))) path (w_engine w))
    as [[s inner'] st] eqn:Hopen.
  pose proof (get_sst_writer_run self path idx w cf s inner' st Hcf Hopen) as Hrun.
  eexists cf, _, _. split; [exact Hcf |]. split; [exact Hrun |].
  cbv zeta. rewrite Hopen. simpl.
  erewrite new_events_app by reflexivity. by repeat split.
Qed.

Lemma get_sst_writer_never_null_witness :
  (0 < length (RocksDbBridge.cf_handles Scripted.bridge2))%nat /\
  exists w',
    RocksDbBridge.get_sst_writer
      (Eng := Scripted.engine Scripted.fails_Open) (Ada := Scripted.adapter)
      Scripted.bridge2 "/missing/bulk.sst" 0
      (Scripted.world0 Scripted.fails_Open Scripted.empty_store) =
    (Returned
       (Some {| SstFileWriterBridge.inner :=
                  Scripted.writer Scripted.fails_Open (DbPtr 1, CfPtr 10) None |}),
     w') /\
    rs_code (w_status w') = kIOError.
Proof.
  assert (Hidx : (0 < length (RocksDbBridge.cf_handles Scripted.bridge2))%nat)
    by (simpl; lia).
  split; [exact Hidx |].
  destruct (get_sst_writer_never_null
              (Eng := Scripted.engine Scripted.fails_Open) (Ada := Scripted.adapter)
              Scripted.bridge2 "/missing/bulk.sst" 0
              (Scripted.world0 Scripted.fails_Open Scripted.empty_store) Hidx)
    as (cf & writer & w' & Hcf & Hrun & Hinner & _ & _ & Hstatus).
  simpl in Hcf. injection Hcf as <-.
  exists w'. split.
  - rewrite Hrun. destruct writer as [inner]. simpl in Hinner. by rewrite Hinner.
  - by rewrite Hstatus.
Defined.

(** C2, as the code has it: for an index in range, [ingest_sst] makes one
    ingestion call on the base database, for the column family at that index,
    with the one path given and default-constructed ingestion options, and
    stores the translation of its status.  Default options do not ask for a
    move ([move_files] is off), so the engine is asked to copy the file; what
    is moved is the local path string, into the list of files. *)
Theorem ingest_sst_default_options
    `{Eng : Engine} `{Ada : StatusAdapter}
    (self : RocksDbBridge.t) (path : string) (idx : nat) (w : World) :
  (idx < length (RocksDbBridge.cf_handles self))%nat ->
  exists cf,
    RocksDbBridge.cf_handles self !! idx = Some cf /\
    let db_ := eng_GetBaseDB (RocksDbBridge.db self) in
    let r := eng_IngestExternalFile db_ cf [path]
               IngestExternalFileOptions_default (w_engine w) in
    RocksDbBridge.ingest_sst self path idx w =
      (Returned tt,
       {| w_engine := r.2;
          w_status := translate r.1 (w_status w);
          w_trace := w_trace w ++
            [EvGetBaseDB (RocksDbBridge.db self);
             EvIngestExternalFile db_ cf [path]
               IngestExternalFileOptions_default r.1;
             EvWriteStatus r.1] |}) /\
    ingest_calls
      (new_events w (RocksDbBridge.ingest_sst self path idx w).2) =
      [(cf, [path], IngestExternalFileOptions_default)] /\
    move_files IngestExternalFileOptions_default = false.
Proof.
  intros Hidx.
  destruct (lookup_lt_is_Some_2 _ _ Hidx) as [cf Hcf].
  exists cf. split; [exact Hcf |].
  intros db_ r.
  destruct r as [s st] eqn:Hr.
  pose proof (ingest_sst_run self path idx w cf s st Hcf Hr) as Hrun.
  rewrite Hrun. simpl.
  erewrite new_events_app by reflexivity. by repeat split.
Qed.

Lemma ingest_sst_default_options_witness :
  (0 < length (RocksDbBridge.cf_handles Scripted.bridge2))%nat /\
  ingest_calls
    (new_events
       (Scripted.world0 Scripted.all_ok Scripted.empty_store)
       (RocksDbBridge.ingest_sst
          (Eng := Scripted.engine Scripted.all_ok) (Ada := Scripted.adapter)
          Scripted.bridge2 "bulk.sst" 0
          (Scripted.world0 Scripted.all_ok Scripted.empty_store)).2) =
  [(CfPtr 10, ["bulk.sst"], IngestExternalFileOptions_default)].
Proof.
  assert (Hidx : (0 < length (RocksDbBridge.cf_handles Scripted.bridge2))%nat)
    by (simpl; lia).
  split; [exact Hidx |].
  destruct (ingest_sst_default_options
              (Eng := Scripted.engine Scripted.all_ok) (Ada := Scripted.adapter)
              Scripted.bridge2 "bulk.sst" 0
              (Scripted.world0 Scripted.all_ok Scripted.empty_store) Hidx)
    as (cf & Hcf & _ & Hcalls & _).
  simpl in Hcf. injection Hcf as <-.
  exact Hcalls.
Defined.

(** C2 fails as stated: the ingestion call gets the default options, and
    these do not ask for a move.  On a store holding the file [bulk.sst], a
    successful [ingest_sst] of it into column family 0 passes options with
    [move_files] off, and the source file is still there afterwards. *)
Lemma ingest_sst_moves_file_counterexample :
  let w := @mkWorld (Scripted.engine Scripted.all_ok)
             {| Scripted.files := ["bulk.sst"]; Scripted.ingested := [];
                Scripted.committed := []; Scripted.released := [] |}
             Scripted.status0 [] in
  let r := RocksDbBridge.ingest_sst
             (Eng := Scripted.engine Scripted.all_ok) (Ada := Scripted.adapter)
             Scripted.bridge2 "bulk.sst" 0 w in
  r.1 = Returned tt /\
  rs_code (w_status r.2) = kOk /\
  map (fun c => move_files c.2) (ingest_calls (new_events w r.2)) = [false] /\
  Scripted.ingested (Scripted.store r.2) = [(CfPtr 10, "bulk.sst")] /\
  Scripted.files (Scripted.store r.2) = ["bulk.sst"].
Proof. by repeat split. Qed.

(** ** Range operations *)

(** C9: when the batch-construction step returns a status that is not ok,
    [del_range] stores the translation of that status and returns: the only
    engine call made is that step, no commit is issued and the engine's state
    is the one before the call. *)
Theorem del_range_refused_never_commits
    `{Eng : Engine} `{Ada : StatusAdapter}
    (self : RocksDbBridge.t) (start end_ : RustBytes) (idx : nat) (w : World)
    (cf : ColumnFamilyHandle) :
  RocksDbBridge.cf_handles self !! idx = Some cf ->
  let r := eng_DeleteRange eng_WriteBatch cf (convert_slice start)
             (convert_slice end_) (w_engine w) in
  ok r.1 = false ->
  let out := RocksDbBridge.del_range self start end_ idx w in
  out.1 = Returned tt /\
  new_events w out.2 =
    [EvDeleteRange eng_WriteBatch cf (convert_slice start)
       (convert_slice end_) r.1;
     EvWriteStatus r.1] /\
  write_calls (new_events w out.2) = [] /\
  w_status out.2 = translate r.1 (w_status w) /\
  w_engine out.2 = w_engine w.
Proof.
  intros Hcf r Hs out.
  destruct r as [s batch] eqn:Hr. simpl in Hs.
  pose proof (del_range_run_refused self start end_ idx w cf s batch Hcf Hr Hs)
    as Hrun.
  subst out. rewrite Hrun. simpl.
  erewrite new_events_app by reflexivity. by repeat split.
Qed.

Lemma del_range_refused_never_commits_witness :
  RocksDbBridge.cf_handles Scripted.bridge2 !! 1%nat = Some (CfPtr 11) /\
  ok (Scripted.on_DeleteRange Scripted.refuses_DeleteRange) = false /\
  let w := Scripted.world0 Scripted.refuses_DeleteRange Scripted.empty_store in
  let out := RocksDbBridge.del_range
               (Eng := Scripted.engine Scripted.refuses_DeleteRange)
               (Ada := Scripted.adapter)
               Scripted.bridge2 (mkRustBytes 100 3) (mkRustBytes 200 3) 1 w in
  write_calls (new_events w out.2) = [] /\
  rs_code (w_status out.2) = kInvalidArgument /\
  Scripted.store out.2 = Scripted.empty_store.
Proof.
  split; [reflexivity |]. split; [reflexivity |].
  intros w out.
  destruct (del_range_refused_never_commits
              (Eng := Scripted.engine Scripted.refuses_DeleteRange)
              (Ada := Scripted.adapter)
              Scripted.bridge2 (mkRustBytes 100 3) (mkRustBytes 200 3) 1 w
              (CfPtr 11) eq_refl eq_refl)
    as (_ & _ & Hwrites & Hstatus & Hengine).
  split; [exact Hwrites |].
  split; [exact (f_equal rs_code Hstatus) | exact Hengine].
Defined.

(** C3, as the code has it: for an index in range, [del_range] makes exactly
    one batch-construction call, a delete-range on a fresh batch for the
    column family at that index with the two bounds converted in the order
    given; when that call returns ok, it then commits the resulting batch
    once, with default write options and with both the concurrency-control
    check and the duplicate-key check skipped, and stores the translation of
    the status of the commit. *)
Theorem del_range_commits_built_batch
    `{Eng : Engine} `{Ada : StatusAdapter}
    (self : RocksDbBridge.t) (start end_ : RustBytes) (idx : nat) (w : World) :
  (idx < length (RocksDbBridge.cf_handles self))%nat ->
  exists cf,
    RocksDbBridge.cf_handles self !! idx = Some cf /\
    let out := RocksDbBridge.del_range self start end_ idx w in
    let r := eng_DeleteRange eng_WriteBatch cf (convert_slice start)
               (convert_slice end_) (w_engine w) in
    let optimizations :=
      {| skip_concurrency_control := true; skip_duplicate_key_check := true |} in
    delete_range_calls (new_events w out.2) =
      [(eng_WriteBatch, cf, convert_slice start, convert_slice end_)] /\
    (ok r.1 = true ->
     let r2 := eng_Write (RocksDbBridge.db self) WriteOptions_default
                 optimizations r.2 (w_engine w) in
     out =
       (Returned tt,
        {| w_engine := r2.2;
           w_status := translate r2.1 (w_status w);
           w_trace := w_trace w ++
             [EvDeleteRange eng_WriteBatch cf (convert_slice start)
                (convert_slice end_) r.1;
              EvWrite (RocksDbBridge.db self) WriteOptions_default
                optimizations r.2 r2.1;
              EvWriteStatus r2.1] |}) /\
     write_calls (new_events w out.2) = [(optimizations, r.2)]).
Proof.
  intros Hidx.
  destruct (lookup_lt_is_Some_2 _ _ Hidx) as [cf Hcf].
  exists cf. split; [exact Hcf |].
  intros out r optimizations.
  destruct r as [s batch] eqn:Hr. simpl.
  destruct (ok s) eqn:Hs.
  - destruct (eng_Write (RocksDbBridge.db self) WriteOptions_default
                optimizations batch (w_engine w)) as [s2 st] eqn:Hwrite.
    pose proof (del_range_run_committed self start end_ idx w cf s batch s2 st
                  Hcf Hr Hs Hwrite) as Hrun.
    subst out. rewrite Hrun. simpl.
    erewrite new_events_app by reflexivity. by repeat split.
  - pose proof (del_range_run_refused self start end_ idx w cf s batch
                  Hcf Hr Hs) as Hrun.
    subst out. rewrite Hrun. simpl.
    erewrite new_events_app by reflexivity. by split.
Qed.

Lemma del_range_commits_built_batch_witness :
  (1 < length (RocksDbBridge.cf_handles Scripted.bridge2))%nat /\
  let w := Scripted.world0 Scripted.all_ok Scripted.empty_store in
  let out := RocksDbBridge.del_range
               (Eng := Scripted.engine Scripted.all_ok) (Ada := Scripted.adapter)
               Scripted.bridge2 (mkRustBytes 100 3) (mkRustBytes 200 3) 1 w in
  write_calls (new_events w out.2) =
    [({| skip_concurrency_control := true; skip_duplicate_key_check := true |},
      Scripted.batch Scripted.all_ok
        [(CfPtr 11, mkSlice 100 3, mkSlice 200 3)])] /\
  Scripted.committed (Scripted.store out.2) =
    [[(CfPtr 11, mkSlice 100 3, mkSlice 200 3)]].
Proof.
  assert (Hidx : (1 < length (RocksDbBridge.cf_handles Scripted.bridge2))%nat)
    by (simpl; lia).
  split; [exact Hidx |].
  intros w out.
  destruct (del_range_commits_built_batch
              (Eng := Scripted.engine Scripted.all_ok) (Ada := Scripted.adapter)
              Scripted.bridge2 (mkRustBytes 100 3) (mkRustBytes 200 3) 1 w Hidx)
    as (cf & Hcf & _ & Hcommit).
  simpl in Hcf. injection Hcf as <-.
  destruct (Hcommit eq_refl) as [Hout Hwrites].
  split; [exact Hwrites |].
  exact (f_equal (fun o => Scripted.committed (Scripted.store o.2)) Hout).
Defined.

(** C3 fails as stated: the commit is not made for every pair of bounds.  On
    an engine that refuses the delete-range step, [del_range] with an index
    in range builds the batch call and returns without any commit. *)
Lemma del_range_always_commits_counterexample :
  let w := Scripted.world0 Scripted.refuses_DeleteRange Scripted.empty_store in
  let out := RocksDbBridge.del_range
               (Eng := Scripted.engine Scripted.refuses_DeleteRange)
               (Ada := Scripted.adapter)
               Scripted.bridge2 (mkRustBytes 100 3) (mkRustBytes 200 3) 1 w in
  (1 < length (RocksDbBridge.cf_handles Scripted.bridge2))%nat /\
  out.1 = Returned tt /\
  delete_range_calls (new_events w out.2) =
    [(Scripted.batch Scripted.refuses_DeleteRange [], CfPtr 11,
      mkSlice 100 3, mkSlice 200 3)] /\
  write_calls (new_events w out.2) = [] /\
  Scripted.committed (Scripted.store out.2) = [].
Proof. simpl. repeat split. lia. Qed.

(** ** Indices past the end *)

(** C1, as the code has it: none of the four members checks the index.  For
    an index at or past the number of column families each of them reaches
    the unchecked access [cf_handles[idx]]; up to there no status has been
    written and no status-returning engine call has been made
    ([get_sst_writer] and [ingest_sst] have fetched the base database,
    [del_range] and [compact_range] have done nothing). *)
Theorem out_of_range_is_unchecked_access
    `{Eng : Engine} `{Ada : StatusAdapter}
    (self : RocksDbBridge.t) (path : string) (start end_ : RustBytes)
    (idx : nat) (w : World) :
  (length (RocksDbBridge.cf_handles self) <= idx)%nat ->
  RocksDbBridge.get_sst_writer self path idx w =
    (OutOfBounds, log (EvGetBaseDB (RocksDbBridge.db self)) w) /\
  RocksDbBridge.ingest_sst self path idx w =
    (OutOfBounds, log (EvGetBaseDB (RocksDbBridge.db self)) w) /\
  RocksDbBridge.del_range self start end_ idx w = (OutOfBounds, w) /\
  RocksDbBridge.compact_range self start end_ idx w = (OutOfBounds, w) /\
  w_status (log (EvGetBaseDB (RocksDbBridge.db self)) w) = w_status w.
Proof.
  intros Hidx.
  pose proof (lookup_ge_None_2 _ _ Hidx) as Hcf.
  split; [by apply get_sst_writer_past_end |].
  split; [by apply ingest_sst_past_end |].
  split; [by apply del_range_past_end |].
  split; [by apply compact_range_past_end | reflexivity].
Qed.

Lemma out_of_range_is_unchecked_access_witness :
  (length (RocksDbBridge.cf_handles Scripted.bridge2) <= 7)%nat /\
  let w := Scripted.world0 Scripted.all_ok Scripted.empty_store in
  RocksDbBridge.del_range
    (Eng := Scripted.engine Scripted.all_ok) (Ada := Scripted.adapter)
    Scripted.bridge2 (mkRustBytes 100 3) (mkRustBytes 200 3) 7 w =
  (OutOfBounds, w).
Proof.
  assert (Hidx : (length (RocksDbBridge.cf_handles Scripted.bridge2) <= 7)%nat)
    by (simpl; lia).
  split; [exact Hidx |].
  intros w.
  exact (proj1 (proj2 (proj2
    (out_of_range_is_unchecked_access
       (Eng := Scripted.engine Scripted.all_ok) (Ada := Scripted.adapter)
       Scripted.bridge2 "bulk.sst" (mkRustBytes 100 3) (mkRustBytes 200 3)
       7 w Hidx)))).
Defined.

(** C1 fails as stated: with two column families and index 2, none of the four
    members returns with an invalid-argument status; each runs into the
    access past the end of the handle vector, the caller's status still being
    the one it had. *)
Lemma out_of_range_invalid_argument_counterexample :
  let w := Scripted.world0 Scripted.all_ok Scripted.empty_store in
  let get_sst_writer := RocksDbBridge.get_sst_writer
        (Eng := Scripted.engine Scripted.all_ok) (Ada := Scripted.adapter) in
  let ingest_sst := RocksDbBridge.ingest_sst
        (Eng := Scripted.engine Scripted.all_ok) (Ada := Scripted.adapter) in
  let del_range := RocksDbBridge.del_range
        (Eng := Scripted.engine Scripted.all_ok) (Ada := Scripted.adapter) in
  let compact_range := RocksDbBridge.compact_range
        (Eng := Scripted.engine Scripted.all_ok) (Ada := Scripted.adapter) in
  let a := mkRustBytes 100 3 in
  let b := mkRustBytes 200 3 in
  (length (RocksDbBridge.cf_handles Scripted.bridge2) <= 2)%nat /\
  (~ reports_invalid_argument (get_sst_writer Scripted.bridge2 "bulk.sst" 2%nat w) /\
   ~ reports_invalid_argument (ingest_sst Scripted.bridge2 "bulk.sst" 2%nat w) /\
   ~ reports_invalid_argument (del_range Scripted.bridge2 a b 2%nat w) /\
   ~ reports_invalid_argument (compact_range Scripted.bridge2 a b 2%nat w)) /\
  ((get_sst_writer Scripted.bridge2 "bulk.sst" 2%nat w).1 = OutOfBounds /\
   (ingest_sst Scripted.bridge2 "bulk.sst" 2%nat w).1 = OutOfBounds /\
   (del_range Scripted.bridge2 a b 2%nat w).1 = OutOfBounds /\
   (compact_range Scripted.bridge2 a b 2%nat w).1 = OutOfBounds) /\
  w_status (del_range Scripted.bridge2 a b 2%nat w).2 = Scripted.status0.
Proof.
  simpl. split; [lia |].
  split; [| by repeat split].
  repeat split; intros [[x Hx] _]; discriminate Hx.
Qed.

(** ** Status routing *)

Section Routing.
Context `{Eng : Engine} `{Ada : StatusAdapter}.

(** What the statement on routing says of one run: the adapter ran once,
    on the last status the engine returned, and that is the only status the
    engine returned unless the run is a [del_range] whose batch step was ok. *)
Lemma routed_single (c : BridgeCall) (w w' : World) (e : Event) (s : Status) :
  engine_status e = Some s ->
  (is_del_range c = true -> ok s = false) ->
  w_trace w' = w_trace w ++ [e; EvWriteStatus s] ->
  w_status w' = translate s (w_status w) ->
  exists s,
    written_statuses (new_events w w') = [s] /\
    w_status w' = translate s (w_status w) /\
    ((engine_statuses (new_events w w') = [s] /\
      (is_del_range c = true -> ok s = false)) \/
     (is_del_range c = true /\
      exists s1, ok s1 = true /\ engine_statuses (new_events w w') = [s1; s])).
Proof.
  intros He Hdel Ht Hst. exists s.
  rewrite (new_events_app w w' _ Ht).
  unfold written_statuses, engine_statuses. simpl. rewrite He.
  destruct e; simpl in He; try discriminate; by (split; [| split; [| left]]).
Qed.

End Routing.

(** C6, as the code has it: every member that returns has run the adapter
    exactly once, on the status returned by the last engine call it made, and
    the caller's status is the translation of that status.  For the bulk
    writer's put and finish, the open in [get_sst_writer], the ingestion and
    the range compaction this is the only status-returning call made.
    [del_range] differs: the status of its batch step is routed only when it
    is not ok; when it is ok it is dropped and the status of the commit is
    the one routed. *)
Theorem every_call_writes_last_status
    `{Eng : Engine} `{Ada : StatusAdapter}
    (c : BridgeCall) (w w' : World) :
  run_call c w = (Returned tt, w') ->
  exists s,
    written_statuses (new_events w w') = [s] /\
    w_status w' = translate s (w_status w) /\
    ((engine_statuses (new_events w w') = [s] /\
      (is_del_range c = true -> ok s = false)) \/
     (is_del_range c = true /\
      exists s1, ok s1 = true /\ engine_statuses (new_events w w') = [s1; s])).
Proof.
  intros Hrun. destruct c as
    [writer key val | writer | self path idx | self path idx
    | self start end_ idx | self start end_ idx]; unfold run_call in Hrun.
  - destruct (eng_Put (SstFileWriterBridge.inner writer) (convert_slice key)
                (convert_slice val) (w_engine w)) as [[s inner'] st] eqn:Hput.
    unfold bind in Hrun. rewrite (put_run _ _ _ _ _ _ _ Hput) in Hrun.
    injection Hrun as <-.
    by eapply (routed_single _ _ _ (EvPut _ _ _ s) s).
  - destruct (eng_Finish (SstFileWriterBridge.inner writer) (w_engine w))
      as [[s inner'] st] eqn:Hfinish.
    unfold bind in Hrun. rewrite (finish_run _ _ _ _ _ Hfinish) in Hrun.
    injection Hrun as <-.
    by eapply (routed_single _ _ _ (EvFinish _ s) s).
  - destruct (RocksDbBridge.cf_handles self !! idx) as [cf |] eqn:Hcf.
    2: { unfold bind in Hrun.
         rewrite (get_sst_writer_past_end _ _ _ _ Hcf) in Hrun. discriminate. }
    destruct (eng_Open
                (eng_SstFileWriter mkEnvOptions
                   (eng_GetOptions (eng_GetBaseDB (RocksDbBridge.db self)) cf
                      (w_engine w))) path (w_engine w))
      as [[s inner'] st] eqn:Hopen.
    unfold bind in Hrun.
    rewrite (get_sst_writer_run _ _ _ _ _ _ _ _ Hcf Hopen) in Hrun.
    injection Hrun as <-. exists s.
    erewrite new_events_app by reflexivity.
    split; [done |]. split; [done |]. by left.
  - destruct (RocksDbBridge.cf_handles self !! idx) as [cf |] eqn:Hcf.
    2: { rewrite (ingest_sst_past_end _ _ _ _ Hcf) in Hrun. discriminate. }
    destruct (eng_IngestExternalFile (eng_GetBaseDB (RocksDbBridge.db self))
                cf [path] IngestExternalFileOptions_default (w_engine w))
      as [s st] eqn:Hingest.
    rewrite (ingest_sst_run _ _ _ _ _ _ _ Hcf Hingest) in Hrun.
    injection Hrun as <-. exists s.
    erewrite new_events_app by reflexivity.
    split; [done |]. split; [done |]. by left.
  - destruct (RocksDbBridge.cf_handles self !! idx) as [cf |] eqn:Hcf.
    2: { rewrite (del_range_past_end _ _ _ _ _ Hcf) in Hrun. discriminate. }
    destruct (eng_DeleteRange eng_WriteBatch cf (convert_slice start)
                (convert_slice end_) (w_engine w)) as [s batch] eqn:Hdel.
    destruct (ok s) eqn:Hs.
    + destruct (eng_Write (RocksDbBridge.db self) WriteOptions_default
                  {| skip_concurrency_control := true;
                     skip_duplicate_key_check := true |} batch (w_engine w))
        as [s2 st] eqn:Hwrite.
      rewrite (del_range_run_committed _ _ _ _ _ _ _ _ _ _ Hcf Hdel Hs Hwrite)
        in Hrun.
      injection Hrun as <-. exists s2.
      erewrite new_events_app by reflexivity.
      split; [done |]. split; [done |]. right. split; [done |]. by exists s.
    + rewrite (del_range_run_refused _ _ _ _ _ _ _ _ Hcf Hdel Hs) in Hrun.
      injection Hrun as <-.
      by eapply (routed_single _ _ _ (EvDeleteRange _ _ _ _ s) s).
  - destruct (RocksDbBridge.cf_handles self !! idx) as [cf |] eqn:Hcf.
    2: { rewrite (compact_range_past_end _ _ _ _ _ Hcf) in Hrun. discriminate. }
    destruct (eng_CompactRange (RocksDbBridge.db self)
                CompactRangeOptions_default cf (convert_slice start)
                (convert_slice end_) (w_engine w)) as [s st] eqn:Hcompact.
    rewrite (compact_range_run _ _ _ _ _ _ _ _ Hcf Hcompact) in Hrun.
    injection Hrun as <-.
    by eapply (routed_single _ _ _ (EvCompactRange _ _ _ _ _ s) s).
Qed.

Lemma every_call_writes_last_status_witness :
  let w := Scripted.world0 Scripted.all_ok Scripted.empty_store in
  let c := @CallDelRange (Scripted.engine Scripted.all_ok) Scripted.bridge2
             (mkRustBytes 100 3) (mkRustBytes 200 3) 0 in
  let w' := (run_call (Ada := Scripted.adapter) c w).2 in
  run_call (Ada := Scripted.adapter) c w = (Returned tt, w') /\
  exists s,
    written_statuses (new_events w w') = [s] /\
    w_status w' = translate (StatusAdapter := Scripted.adapter) s (w_status w) /\
    ((engine_statuses (new_events w w') = [s] /\
      (is_del_range c = true -> ok s = false)) \/
     (is_del_range c = true /\
      exists s1, ok s1 = true /\ engine_statuses (new_events w w') = [s1; s])).
Proof.
  intros w c w'.
  assert (Hrun : run_call (Ada := Scripted.adapter) c w = (Returned tt, w'))
    by reflexivity.
  split; [exact Hrun |].
  exact (every_call_writes_last_status
           (Eng := Scripted.engine Scripted.all_ok) (Ada := Scripted.adapter)
           c w w' Hrun).
Defined.

(** C6 fails as stated: in a [del_range] that goes through, the engine
    returns two statuses, one from the batch step and one from the commit,
    and the adapter runs once, on the second; the first is never routed. *)
Lemma del_range_routes_each_once_counterexample :
  let w := Scripted.world0 Scripted.all_ok Scripted.empty_store in
  let out := RocksDbBridge.del_range
               (Eng := Scripted.engine Scripted.all_ok) (Ada := Scripted.adapter)
               Scripted.bridge2 (mkRustBytes 100 3) (mkRustBytes 200 3) 0 w in
  out.1 = Returned tt /\
  engine_statuses (new_events w out.2) = [Scripted.OK; Scripted.OK] /\
  written_statuses (new_events w out.2) = [Scripted.OK] /\
  ~ routes_each_once (new_events w out.2).
Proof.
  simpl. repeat split. intros Hroutes. discriminate Hroutes.
Qed.

(** * Further properties of the header *)

(** ** Range compaction *)

(** X1: for an index in range, [compact_range] makes exactly one engine call,
    a range compaction on the transactional database itself with default
    compaction options, for the column family at that index and with the two
    bounds converted in the order given, and stores the translation of its
    status. *)
Theorem compact_range_in_range
    `{Eng : Engine} `{Ada : StatusAdapter}
    (self : RocksDbBridge.t) (start end_ : RustBytes) (idx : nat) (w : World) :
  (idx < length (RocksDbBridge.cf_handles self))%nat ->
  exists cf,
    RocksDbBridge.cf_handles self !! idx = Some cf /\
    let r := eng_CompactRange (RocksDbBridge.db self)
               CompactRangeOptions_default cf (convert_slice start)
               (convert_slice end_) (w_engine w) in
    RocksDbBridge.compact_range self start end_ idx w =
      (Returned tt,
       {| w_engine := r.2;
          w_status := translate r.1 (w_status w);
          w_trace := w_trace w ++
            [EvCompactRange (RocksDbBridge.db self) CompactRangeOptions_default
               cf (convert_slice start) (convert_slice end_) r.1;
             EvWriteStatus r.1] |}).
Proof.
  intros Hidx.
  destruct (lookup_lt_is_Some_2 _ _ Hidx) as [cf Hcf].
  exists cf. split; [exact Hcf |].
  intros r. apply compact_range_run; [exact Hcf |].
  subst r. by destruct (eng_CompactRange _ _ _ _ _ _) as [s st].
Qed.

Lemma compact_range_in_range_witness :
  (1 < length (RocksDbBridge.cf_handles Scripted.bridge2))%nat /\
  new_events
    (Scripted.world0 Scripted.all_ok Scripted.empty_store)
    (RocksDbBridge.compact_range
       (Eng := Scripted.engine Scripted.all_ok) (Ada := Scripted.adapter)
       Scripted.bridge2 (mkRustBytes 100 3) (mkRustBytes 200 3) 1
       (Scripted.world0 Scripted.all_ok Scripted.empty_store)).2 =
  [EvCompactRange (TxnDbPtr 1) CompactRangeOptions_default (CfPtr 11)
     (mkSlice 100 3) (mkSlice 200 3) Scripted.OK;
   EvWriteStatus Scripted.OK].
Proof.
  assert (Hidx : (1 < length (RocksDbBridge.cf_handles Scripted.bridge2))%nat)
    by (simpl; lia).
  split; [exact Hidx |].
  destruct (compact_range_in_range
              (Eng := Scripted.engine Scripted.all_ok) (Ada := Scripted.adapter)
              Scripted.bridge2 (mkRustBytes 100 3) (mkRustBytes 200 3) 1
              (Scripted.world0 Scripted.all_ok Scripted.empty_store) Hidx)
    as (cf & Hcf & Hrun).
  simpl in Hcf. injection Hcf as <-.
  rewrite Hrun. reflexivity.
Defined.

(** ** Returning and the index *)


(** ** What a status of [del_range] tells *)

Lemma new_events_refl `{Eng : Engine} (w : World) : new_events w w = [].
Proof. unfold new_events. by rewrite drop_all. Qed.



(** ** Commits *)

(** X4: commits come from [del_range] only, at most one per call and always
    with both checks skipped.  Whatever the engine answers and whatever the
    index, a call of the bridge issues at most one commit, every commit it
    issues skips the concurrency-control and the duplicate-key check, and a
    call other than [del_range] issues neither a commit nor a batch step. *)
Theorem commits_only_from_del_range
    `{Eng : Engine} `{Ada : StatusAdapter} (c : BridgeCall) (w : World) :
  let evs := new_events w (run_call c w).2 in
  (length (write_calls evs) <= 1)%nat /\
  Forall skips_both_checks (write_calls evs) /\
  (write_calls evs <> [] \/ delete_range_calls evs <> [] ->
   is_del_range c = true).
Proof.
  intros evs. subst evs.
  destruct c as
    [writer key val | writer | self path idx | self path idx
    | self start end_ idx | self start end_ idx]; unfold run_call.
  - destruct (eng_Put (SstFileWriterBridge.inner writer) (convert_slice key)
                (convert_slice val) (w_engine w)) as [[s inner'] st] eqn:Hput.
    unfold bind. rewrite (put_run _ _ _ _ _ _ _ Hput). simpl.
    erewrite new_events_app by reflexivity. simpl.
    split; [lia |]. split; [constructor |]. by intros [? | ?].
  - destruct (eng_Finish (SstFileWriterBridge.inner writer) (w_engine w))
      as [[s inner'] st] eqn:Hfinish.
    unfold bind. rewrite (finish_run _ _ _ _ _ Hfinish). simpl.
    erewrite new_events_app by reflexivity. simpl.
    split; [lia |]. split; [constructor |]. by intros [? | ?].
  - unfold bind.
    destruct (RocksDbBridge.cf_handles self !! idx) as [cf |] eqn:Hcf.
    + destruct (eng_Open
                  (eng_SstFileWriter mkEnvOptions
                     (eng_GetOptions (eng_GetBaseDB (RocksDbBridge.db self)) cf
                        (w_engine w))) path (w_engine w))
        as [[s inner'] st] eqn:Hopen.
      rewrite (get_sst_writer_run _ _ _ _ _ _ _ _ Hcf Hopen). simpl.
      erewrite new_events_app by reflexivity. simpl.
      split; [lia |]. split; [constructor |]. by intros [? | ?].
    + rewrite (get_sst_writer_past_end _ _ _ _ Hcf). simpl.
      erewrite new_events_app by reflexivity. simpl.
      split; [lia |]. split; [constructor |]. by intros [? | ?].
  - destruct (RocksDbBridge.cf_handles self !! idx) as [cf |] eqn:Hcf.
    + destruct (eng_IngestExternalFile (eng_GetBaseDB (RocksDbBridge.db self))
                  cf [path] IngestExternalFileOptions_default (w_engine w))
        as [s st] eqn:Hingest.
      rewrite (ingest_sst_run _ _ _ _ _ _ _ Hcf Hingest). simpl.
      erewrite new_events_app by reflexivity. simpl.
      split; [lia |]. split; [constructor |]. by intros [? | ?].
    + rewrite (ingest_sst_past_end _ _ _ _ Hcf). simpl.
      erewrite new_events_app by reflexivity. simpl.
      split; [lia |]. split; [constructor |]. by intros [? | ?].
  - destruct (RocksDbBridge.cf_handles self !! idx) as [cf |] eqn:Hcf.
    + destruct (eng_DeleteRange eng_WriteBatch cf (convert_slice start)
                  (convert_slice end_) (w_engine w)) as [s batch] eqn:Hdel.
      destruct (ok s) eqn:Hs.
      * destruct (eng_Write (RocksDbBridge.db self) WriteOptions_default
                    {| skip_concurrency_control := true;
                       skip_duplicate_key_check := true |} batch (w_engine w))
          as [s2 st] eqn:Hwrite.
        rewrite (del_range_run_committed _ _ _ _ _ _ _ _ _ _ Hcf Hdel Hs Hwrite).
        simpl. erewrite new_events_app by reflexivity. simpl.
        split; [lia |]. split; [| done].
        constructor; [by split | constructor].
      * rewrite (del_range_run_refused _ _ _ _ _ _ _ _ Hcf Hdel Hs). simpl.
        erewrite new_events_app by reflexivity. simpl.
        split; [lia |]. split; [constructor | done].
    + rewrite (del_range_past_end _ _ _ _ _ Hcf). simpl.
      rewrite new_events_refl. simpl.
      split; [lia |]. split; [constructor | done].
  - destruct (RocksDbBridge.cf_handles self !! idx) as [cf |] eqn:Hcf.
    + destruct (eng_CompactRange (RocksDbBridge.db self)
                  CompactRangeOptions_default cf (convert_slice start)
                  (convert_slice end_) (w_engine w)) as [s st] eqn:Hcompact.
      rewrite (compact_range_run _ _ _ _ _ _ _ _ Hcf Hcompact). simpl.
      erewrite new_events_app by reflexivity. simpl.
      split; [lia |]. split; [constructor |]. by intros [? | ?].
    + rewrite (compact_range_past_end _ _ _ _ _ Hcf). simpl.
      rewrite new_events_refl. simpl.
      split; [lia |]. split; [constructor |]. by intros [? | ?].
Qed.

(** ** The status parameter *)

(** X5: the status parameter is written, never read.  Run from two worlds
    that differ only in the status object the caller passes, a call of the
    bridge has the same outcome, makes the same engine calls with the same
    results and leaves the engine in the same state: a status left over from
    an earlier call has no influence on what a member does. *)
Theorem status_is_output_only
    `{Eng : Engine} `{Ada : StatusAdapter}
    (c : BridgeCall) (w : World) (st : RocksDbStatus) :
  let r := run_call c w in
  let r' := run_call c (with_status st w) in
  r'.1 = r.1 /\
  w_engine r'.2 = w_engine r.2 /\
  engine_statuses (new_events (with_status st w) r'.2) =
    engine_statuses (new_events w r.2) /\
  w_trace r'.2 = w_trace r.2.
Proof.
  intros r r'. subst r r'.
  destruct c as
    [writer key val | writer | self path idx | self path idx
    | self start end_ idx | self start end_ idx]; unfold run_call.
  - destruct (eng_Put (SstFileWriterBridge.inner writer) (convert_slice key)
                (convert_slice val) (w_engine w)) as [[s inner'] st'] eqn:Hput.
    unfold bind.
    rewrite (put_run writer key val w s inner' st' Hput),
      (put_run writer key val (with_status st w) s inner' st' Hput).
    simpl. by erewrite !new_events_app by reflexivity.
  - destruct (eng_Finish (SstFileWriterBridge.inner writer) (w_engine w))
      as [[s inner'] st'] eqn:Hfinish.
    unfold bind.
    rewrite (finish_run writer w s inner' st' Hfinish),
      (finish_run writer (with_status st w) s inner' st' Hfinish).
    simpl. by erewrite !new_events_app by reflexivity.
  - unfold bind.
    destruct (RocksDbBridge.cf_handles self !! idx) as [cf |] eqn:Hcf.
    + destruct (eng_Open
                  (eng_SstFileWriter mkEnvOptions
                     (eng_GetOptions (eng_GetBaseDB (RocksDbBridge.db self)) cf
                        (w_engine w))) path (w_engine w))
        as [[s inner'] st'] eqn:Hopen.
      rewrite (get_sst_writer_run self path idx w cf s inner' st' Hcf Hopen),
        (get_sst_writer_run self path idx (with_status st w) cf s inner' st'
           Hcf Hopen).
      simpl. by erewrite !new_events_app by reflexivity.
    + rewrite !(get_sst_writer_past_end _ _ _ _ Hcf). simpl.
      by erewrite !new_events_app by reflexivity.
  - destruct (RocksDbBridge.cf_handles self !! idx) as [cf |] eqn:Hcf.
    + destruct (eng_IngestExternalFile (eng_GetBaseDB (RocksDbBridge.db self))
                  cf [path] IngestExternalFileOptions_default (w_engine w))
        as [s st'] eqn:Hingest.
      rewrite (ingest_sst_run self path idx w cf s st' Hcf Hingest),
        (ingest_sst_run self path idx (with_status st w) cf s st' Hcf Hingest).
      simpl. by erewrite !new_events_app by reflexivity.
    + rewrite !(ingest_sst_past_end _ _ _ _ Hcf). simpl.
      by erewrite !new_events_app by reflexivity.
  - destruct (RocksDbBridge.cf_handles self !! idx) as [cf |] eqn:Hcf.
    + destruct (eng_DeleteRange eng_WriteBatch cf (convert_slice start)
                  (convert_slice end_) (w_engine w)) as [s batch] eqn:Hdel.
      destruct (ok s) eqn:Hs.
      * destruct (eng_Write (RocksDbBridge.db self) WriteOptions_default
                    {| skip_concurrency_control := true;
                       skip_duplicate_key_check := true |} batch (w_engine w))
          as [s2 st'] eqn:Hwrite.
        rewrite (del_range_run_committed self start end_ idx w cf s batch s2
                   st' Hcf Hdel Hs Hwrite),
          (del_range_run_committed self start end_ idx (with_status st w) cf s
             batch s2 st' Hcf Hdel Hs Hwrite).
        simpl. by erewrite !new_events_app by reflexivity.
      * rewrite (del_range_run_refused self start end_ idx w cf s batch
                   Hcf Hdel Hs),
          (del_range_run_refused self start end_ idx (with_status st w) cf s
             batch Hcf Hdel Hs).
        simpl. by erewrite !new_events_app by reflexivity.
    + rewrite !(del_range_past_end _ _ _ _ _ Hcf). simpl.
      by rewrite !new_events_refl.
  - destruct (RocksDbBridge.cf_handles self !! idx) as [cf |] eqn:Hcf.
    + destruct (eng_CompactRange (RocksDbBridge.db self)
                  CompactRangeOptions_default cf (convert_slice start)
                  (convert_slice end_) (w_engine w)) as [s st'] eqn:Hcompact.
      rewrite (compact_range_run self start end_ idx w cf s st' Hcf Hcompact),
        (compact_range_run self start end_ idx (with_status st w) cf s st'
           Hcf Hcompact).
      simpl. by erewrite !new_events_app by reflexivity.
    + rewrite !(compact_range_past_end _ _ _ _ _ Hcf). simpl.
      by rewrite !new_events_refl.
Qed.

(** ** The bulk writer *)

(** X6: [put] followed by [finish] on the same writer.  [put] hands the
    engine the two views converted from the key and the value; [finish] then
    works on the writer as the put call left it and is issued whatever status
    the put returned, the bridge keeping no record of a failed put; the
    adapter runs after each of the two calls, so the caller's status ends as
    the translation of the finish status over that of the put status. *)
Theorem put_then_finish
    `{Eng : Engine} `{Ada : StatusAdapter}
    (writer : SstFileWriterBridge.t) (key val : RustBytes) (w : World) :
  let r1 := eng_Put (SstFileWriterBridge.inner writer) (convert_slice key)
              (convert_slice val) (w_engine w) in
  let r2 := eng_Finish r1.1.2 r1.2 in
  (writer' <- SstFileWriterBridge.put writer key val ;;
   SstFileWriterBridge.finish writer') w =
    (Returned {| SstFileWriterBridge.inner := r2.1.2 |},
     {| w_engine := r2.2;
        w_status := translate r2.1.1 (translate r1.1.1 (w_status w));
        w_trace := w_trace w ++
          [EvPut (SstFileWriterBridge.inner writer) (convert_slice key)
             (convert_slice val) r1.1.1;
           EvWriteStatus r1.1.1;
           EvFinish r1.1.2 r2.1.1;
           EvWriteStatus r2.1.1] |}).
Proof.
  intros r1 r2.
  destruct r1 as [[s1 inner1] st1] eqn:Hput.
  destruct r2 as [[s2 inner2] st2] eqn:Hfinish.
  simpl in Hfinish |- *.
  unfold bind. rewrite (put_run _ _ _ _ _ _ _ Hput).
  erewrite finish_run by exact Hfinish.
  simpl. flatten_trace. reflexivity.
Qed.

(** ** The comparator, further *)

(** X7: on views converted from host views, [Compare] is the callback on
    those very host views: the conversion back undoes the conversion. *)
Theorem Compare_on_converted_views
    (self : RustComparator.t) (x y : RustBytes) :
  RustComparator.Compare self (convert_slice x) (convert_slice y) =
    int8_val (RustComparator.ext_cmp self x y).
Proof.
  unfold RustComparator.Compare.
  rewrite !convert_slice_back_convert_slice. apply to_int_int8.
Qed.

(** X8: the [int] that [Compare] returns always lies in the range of a signed
    byte, from -128 to 127. *)
Theorem Compare_in_signed_byte_range (self : RustComparator.t) (a b : Slice) :
  -128 <= RustComparator.Compare self a b < 128.
Proof.
  unfold RustComparator.Compare. rewrite to_int_int8. apply int8_bounds.
Qed.

(** X9: [Compare] is antisymmetric in sign whenever the callback is: if
    swapping the arguments of the callback always flips the sign of its
    result, then swapping the arguments of [Compare] flips the sign of its
    result, and [Compare] of a view with itself is zero. *)
Theorem Compare_antisymmetric
    (self : RustComparator.t) :
  (forall x y : RustBytes,
     Z.sgn (int8_val (RustComparator.ext_cmp self x y)) =
     - Z.sgn (int8_val (RustComparator.ext_cmp self y x))) ->
  forall a b : Slice,
    Z.sgn (RustComparator.Compare self a b) =
      - Z.sgn (RustComparator.Compare self b a) /\
    RustComparator.Compare self a a = 0.
Proof.
  intros Hanti a b.
  unfold RustComparator.Compare. rewrite !to_int_int8.
  split; [apply Hanti |].
  pose proof (Hanti (convert_slice_back a) (convert_slice_back a)) as Hself.
  destruct (int8_val _); simpl in Hself; [done | discriminate | discriminate].
Qed.

Lemma by_length_antisymmetric (x y : RustBytes) :
  Z.sgn (int8_val (by_length x y)) = - Z.sgn (int8_val (by_length y x)).
Proof.
  unfold by_length. rewrite (N.compare_antisym (rb_len x) (rb_len y)).
  by destruct (rb_len x ?= rb_len y)%N.
Qed.

Lemma Compare_antisymmetric_witness :
  let self := RustComparator.new "by_length" false by_length in
  Z.sgn (RustComparator.Compare self (mkSlice 100 3) (mkSlice 200 5)) =
    - Z.sgn (RustComparator.Compare self (mkSlice 200 5) (mkSlice 100 3)) /\
  RustComparator.Compare self (mkSlice 100 3) (mkSlice 100 3) = 0.
Proof.
  intros self.
  exact (Compare_antisymmetric self by_length_antisymmetric
           (mkSlice 100 3) (mkSlice 200 5)).
Defined.
